(** * KhutbahMaker: a shallow embedding of [src/khutbahmaker/__init__.py]

    Python strings are modelled as Rocq [string]s over ASCII characters;
    the character classes of Python's [re] module ([\w], [a-zA-Z]) and the
    whitespace of [str.strip] are written out for that alphabet. *)

From Stdlib Require Import String Ascii List Bool Lia.
Import ListNotations.
Open Scope bool_scope.
Open Scope string_scope.

Module KM.

(** ** Characters *)

Definition tick : ascii := "`"%char.
Definition nl : ascii := "010"%char.

Definition is_tick (c : ascii) : bool := Ascii.eqb c tick.
Definition is_nl (c : ascii) : bool := Ascii.eqb c nl.

Definition in_range (lo hi : nat) (c : ascii) : bool :=
  Nat.leb lo (nat_of_ascii c) && Nat.leb (nat_of_ascii c) hi.

(** [[a-zA-Z]] *)
Definition is_alpha (c : ascii) : bool :=
  in_range 65 90 c || in_range 97 122 c.

(** [\w] restricted to ASCII: [[A-Za-z0-9_]] *)
Definition is_word (c : ascii) : bool :=
  is_alpha c || in_range 48 57 c || Ascii.eqb c "_"%char.

(** [str.isspace] on ASCII: \t \n \v \f \r, \x1c..\x1f and space *)
Definition is_space (c : ascii) : bool :=
  in_range 9 13 c || in_range 28 32 c.

(** ** [__clean_markdown] *)

(** [re.sub(r'```[a-zA-Z]*\n', '', text)]: scanning left to right, a match
    at the current position is three backticks, a maximal run of letters and
    a newline; it is deleted and scanning resumes after it. Otherwise the
    current character is kept and scanning moves one character on. *)
Fixpoint sub_fence_tag (s : string) : string :=
  match s with
  | String c1 ((String c2 (String c3 r3)) as r1) =>
      if is_tick c1 && is_tick c2 && is_tick c3 then
        match (fix scan (u : string) : option string :=
                 match u with
                 | String c u' =>
                     if is_nl c then Some (sub_fence_tag u')
                     else if is_alpha c then scan u' else None
                 | EmptyString => None
                 end) r3 with
        | Some out => out
        | None => String c1 (sub_fence_tag r1)
        end
      else String c1 (sub_fence_tag r1)
  | String c r => String c (sub_fence_tag r)
  | EmptyString => EmptyString
  end.

(** [re.sub(r'```\n?', '', text)] *)
Fixpoint sub_fence (s : string) : string :=
  match s with
  | String c1 ((String c2 (String c3 r3)) as r1) =>
      if is_tick c1 && is_tick c2 && is_tick c3 then
        match r3 with
        | String c4 r4 => if is_nl c4 then sub_fence r4 else sub_fence r3
        | EmptyString => EmptyString
        end
      else String c1 (sub_fence r1)
  | String c r => String c (sub_fence r)
  | EmptyString => EmptyString
  end.

Fixpoint lstrip (s : string) : string :=
  match s with
  | String c r => if is_space c then lstrip r else s
  | EmptyString => EmptyString
  end.

Fixpoint rstrip (s : string) : string :=
  match s with
  | String c r =>
      let r' := rstrip r in
      if is_space c && String.eqb r' EmptyString then EmptyString
      else String c r'
  | EmptyString => EmptyString
  end.

(** [str.strip()] *)
Definition strip (s : string) : string := rstrip (lstrip s).

Definition clean_markdown (text : string) : string :=
  let text := sub_fence_tag text in
  let text := sub_fence text in
  strip text.

(** Substring test for three consecutive backticks. *)
Definition starts2ticks (s : string) : bool :=
  match s with
  | String a (String b _) => is_tick a && is_tick b
  | _ => false
  end.

Fixpoint has3 (s : string) : bool :=
  match s with
  | String a x => (is_tick a && starts2ticks x) || has3 x
  | EmptyString => false
  end.

Definition fence : string := String tick (String tick (String tick EmptyString)).
Definition nls : string := String nl EmptyString.

(** ** Unfolding the two substitutions *)

(** The remainder after [[a-zA-Z]*\n], if that pattern matches a prefix. *)
Fixpoint letters_nl (u : string) : option string :=
  match u with
  | String c u' => if is_nl c then Some u' else if is_alpha c then letters_nl u' else None
  | EmptyString => None
  end.

(** A match of [```[a-zA-Z]*\n] at the head: the rest of the string. *)
Definition head_match_tag (s : string) : option string :=
  match s with
  | String c1 (String c2 (String c3 r3)) =>
      if is_tick c1 && is_tick c2 && is_tick c3 then letters_nl r3 else None
  | _ => None
  end.

(** A match of [```\n?] at the head: the rest of the string. *)
Definition head_match_fence (s : string) : option string :=
  match s with
  | String c1 (String c2 (String c3 r3)) =>
      if is_tick c1 && is_tick c2 && is_tick c3 then
        Some match r3 with
             | String c4 r4 => if is_nl c4 then r4 else r3
             | EmptyString => EmptyString
             end
      else None
  | _ => None
  end.

Definition scan_tag :=
  fix scan (u : string) : option string :=
    match u with
    | String c u' => if is_nl c then Some (sub_fence_tag u') else if is_alpha c then scan u' else None
    | EmptyString => None
    end.

(** ** Responses made only of fences and whitespace *)









(** ** [__khutbah_to_pdf]: file name *)

(** [re.sub(r'[^\w\-]', '_', topic)] *)
Fixpoint sanitize (s : string) : string :=
  match s with
  | String c r =>
      String (if is_word c || Ascii.eqb c "-"%char then c else "_"%char) (sanitize r)
  | EmptyString => EmptyString
  end.

(** [str.lower()] on ASCII *)
Definition lower_char (c : ascii) : ascii :=
  if in_range 65 90 c then ascii_of_nat (nat_of_ascii c + 32) else c.

Fixpoint lower (s : string) : string :=
  match s with
  | String c r => String (lower_char c) (lower r)
  | EmptyString => EmptyString
  end.

(** [s.replace(' ', '_')] *)
Fixpoint replace_space (s : string) : string :=
  match s with
  | String c r => String (if Ascii.eqb c " "%char then "_"%char else c) (replace_space r)
  | EmptyString => EmptyString
  end.

Fixpoint ends_with_slash (s : string) : bool :=
  match s with
  | String c EmptyString => Ascii.eqb c "/"%char
  | String _ r => ends_with_slash r
  | EmptyString => false
  end.

(** [os.path.join(a, b)] on POSIX *)
Definition path_join (a b : string) : string :=
  if String.prefix "/" b then b
  else if String.eqb a "" || ends_with_slash a then a ++ b
  else a ++ "/" ++ b.

(** [str.startswith] *)
Definition startswith (p s : string) : bool := String.prefix p s.

Definition clean_filename (topic language : string) : string :=
  sanitize topic ++ "_khutbah_" ++ replace_space (lower language).

(** ** The prompt built in [__generate_khutbah] *)

Definition build_prompt (topic length tone language : string) : string :=
  "You are an expert Islamic scholar tasked with writing a " ++ length ++
  " Friday khutbah (sermon) in " ++ language ++
  " on the topic: " ++ topic ++
  " with tone: " ++ tone ++
  ". Create a complete, well-structured Islamic khutbah that includes: 1. An appropriate title 2. Opening with praise to Allah and salutations on Prophet Muhammad (peace be upon him) 3. Introduction to the topic with relevant Quranic verses and Hadith 4. Main body with clear points, explanations, and guidance 5. Practical advice for the audience 6. Conclusion with a summary of key points 7. Closing duas (prayers) The khutbah should be scholarly yet accessible, with proper citations of Quranic verses and authentic Hadith. Format in Markdown with appropriate headings, paragraphs, and emphasis. For Arabic text, include both Arabic script and transliteration where appropriate.".

(** ** Documents, exceptions and effects *)

(** [pdf.meta], a Python dict, as an association list (first binding wins). *)
Definition dict := list (string * string).

Definition dict_set (k v : string) (d : dict) : dict :=
  (k, v) :: filter (fun kv => negb (String.eqb (fst kv) k)) d.

Fixpoint dict_get (k : string) (d : dict) : option string :=
  match d with
  | (k', v) :: d' => if String.eqb k' k then Some v else dict_get k d'
  | [] => None
  end.

(** [Section(text, toc=True)] added with [user_css] *)
Record section := mkSection { sec_text : string; sec_toc : bool; sec_css : string }.

(** A [MarkdownPdf] object. *)
Record pdf_doc := mkPdf { toc_level : nat; sections : list section; meta : dict }.

(** Python exceptions: those deriving from [Exception], and those deriving
    only from [BaseException] ([KeyboardInterrupt], [SystemExit]). *)
Inductive exn :=
| Exc (name msg : string)
| BaseExc (name msg : string).

(** [str(e)] *)
Definition exn_str (e : exn) : string :=
  match e with Exc _ m | BaseExc _ m => m end.

Inductive level := Info | Error.

Inductive event :=
| EvLog (lvl : level) (msg : string)      (* ColorPaws logger *)
| EvConfigure (api_key : string)          (* genai.configure *)
| EvWrite (path : string) (doc : pdf_doc). (* pdf.save writing the file *)

Inductive outcome (A : Type) :=
| Ret (a : A)
| Raise (e : exn).
Arguments Ret {A} a.
Arguments Raise {A} e.

(** Computations thread the trace of effects and may raise. *)
Definition M (A : Type) := list event -> outcome A * list event.

Definition ret {A} (a : A) : M A := fun st => (Ret a, st).
Definition raise {A} (e : exn) : M A := fun st => (Raise e, st).
Definition bind {A B} (m : M A) (k : A -> M B) : M B :=
  fun st => match m st with
            | (Ret a, st') => k a st'
            | (Raise e, st') => (Raise e, st')
            end.
Definition emit (ev : event) : M unit := fun st => (Ret tt, app st [ev]).

(** [try: m except Exception as e: h(e)] *)
Definition try_except {A} (m : M A) (h : exn -> M A) : M A :=
  fun st => match m st with
            | (Raise (Exc n s), st') => h (Exc n s) st'
            | r => r
            end.

Notation "x <- m ;; k" := (bind m (fun x => k))
  (at level 61, m at next level, right associativity).
Notation "m ;;; k" := (bind m (fun _ => k))
  (at level 61, right associativity).

Definition log_info (msg : string) : M unit := emit (EvLog Info msg).
Definition log_error (msg : string) : M unit := emit (EvLog Error msg).

Definition tag (task_id : string) : string := "[" ++ task_id ++ "] ".

(** Python truthiness of a [str] or [None] result. *)
Definition truthy (o : option string) : option string :=
  match o with
  | Some s => if String.eqb s "" then None else Some s
  | None => None
  end.

(** The stylesheet passed as [user_css]. *)
Definition css : string := "            
            body {
                font-family: 'Amiri', 'Segoe UI', sans-serif;
                text-align: justify;
                text-justify: inter-word;
                line-height: 1.5;
            }
            
            /* Arabic text specific */
            [lang='ar'] {
                direction: rtl;
                font-family: 'Amiri', serif;
                font-size: 1.6em;
                line-height: 1.8;
            }
            
            h1 {
                text-align: center;
                color: #2c3e50;
                margin-top: 1.5em;
                margin-bottom: 0.8em;
                font-size: 1.5em;
                font-weight: 600;
            }
            
            h2, h3, h4, h5, h6 {
                color: #34495e;
                margin-top: 1.5em;
                margin-bottom: 0.8em;
            }
            
            blockquote {
                background-color: #f9f9f9;
                border-left: 4px solid #4CAF50;
                padding: 10px 15px;
                margin: 15px 0;
                font-style: italic;
            }
            
            p {
                margin: 0.8em 0;
            }
            ".

(** The collaborators of [KhutbahMaker]: its configuration ([api_key],
    [aigc_model]), the [genai] client, the platform temp directory, the
    [markdown_pdf] library, and the clock and [uuid4] read by [__get_taskid]. *)
Record env := mkEnv {
  api_key : option string;
  aigc_model : string;
  (** [genai.GenerativeModel(model).generate_content(prompt).text] *)
  generate_content : string -> string -> M string;
  gettempdir : string;
  (** the [meta] dict of a fresh [MarkdownPdf] *)
  pdf_meta0 : dict;
  (** [pdf.save(path)] failing with an exception *)
  save_fails : pdf_doc -> string -> option exn;
  (** [datetime.now().strftime('%Y%m%d_%H%M%S')] *)
  now_stamp : M string;
  (** [str(uuid.uuid4())] *)
  uuid4 : M string
}.

Definition add_section (pdf : pdf_doc) (s : section) : pdf_doc :=
  mkPdf (toc_level pdf) (app (sections pdf) [s]) (meta pdf).

Definition set_meta (k v : string) (pdf : pdf_doc) : pdf_doc :=
  mkPdf (toc_level pdf) (sections pdf) (dict_set k v (meta pdf)).

(** Reading the local [title] when only the other branch assigns it. *)
Definition unbound_title : exn :=
  Exc "UnboundLocalError"
      "cannot access local variable 'title' where it is not associated with a value".

Section Stages.

Variable E : env.

(** [__generate_khutbah] *)
Definition gen_stage (topic length tone language task_id : string) : M (option string) :=
  try_except
    ((match api_key E with
      | Some k => if String.eqb k "" then ret tt else emit (EvConfigure k)
      | None => ret tt
      end) ;;;
     log_info (tag task_id ++ "Generating khutbah on topic: " ++ topic) ;;;
     let prompt := build_prompt topic length tone language in
     text <- generate_content E (aigc_model E) prompt ;;
     ret (Some (clean_markdown text)))
    (fun e => log_error (tag task_id ++ "Khutbah generation failed: " ++ exn_str e) ;;;
              ret None).

(** [pdf.save(pdf_path)] *)
Definition pdf_save (pdf : pdf_doc) (path : string) : M unit :=
  match save_fails E pdf path with
  | Some e => raise e
  | None => emit (EvWrite path pdf)
  end.

(** [__khutbah_to_pdf]; the local [title] is [None] while unassigned. *)
Definition pdf_stage (markdown_text topic language task_id : string) : M (option string) :=
  try_except
    (let clean_topic := sanitize topic in
     let clean_filename := clean_topic ++ "_khutbah_" ++ replace_space (lower language) in
     let pdf_path := path_join (gettempdir E) (clean_filename ++ ".pdf") in
     log_info (tag task_id ++ "Generating Khutbah PDF: " ++ pdf_path) ;;;
     let pdf := mkPdf 3 [] (pdf_meta0 E) in
     let main_section := mkSection markdown_text true css in
     let pdf := add_section pdf main_section in
     let '(title, markdown_text) :=
       if negb (startswith "# " markdown_text) then
         let title := "Khutbah on " ++ topic in
         (Some title, "# " ++ title ++ nls ++ nls ++ markdown_text)
       else (None, markdown_text) in
     match title with
     | None => raise unbound_title
     | Some title =>
         let pdf := set_meta "title" title pdf in
         let pdf := set_meta "subject" ("Islamic Khutbah on " ++ topic) pdf in
         let pdf := set_meta "author" "Ikmal Said" pdf in
         let pdf := set_meta "creator" "KhutbahMaker" pdf in
         pdf_save pdf pdf_path ;;;
         ret (Some pdf_path)
     end)
    (fun e => log_error (tag task_id ++ "Khutbah PDF generation failed: " ++ exn_str e) ;;;
              ret None).

(** [__get_taskid] *)
Definition get_taskid : M string :=
  timestamp <- now_stamp E ;;
  uuid_part <- uuid4 E ;;
  ret (timestamp ++ "_" ++ substring 0 8 uuid_part).

End Stages.

(** [generate_khutbah], with its two stages and the task-id allocation
    passed in. *)
Definition generate_with
    (get_tid : M string)
    (gen : string -> string -> string -> string -> string -> M (option string))
    (render : string -> string -> string -> string -> M (option string))
    (topic length tone language : string) : M (option string * option string) :=
  if String.eqb topic "" then
    log_error "Topic is required!" ;;; ret (None, None)
  else
    task_id <- get_tid ;;
    log_info (tag task_id ++ "Khutbah generation started!") ;;;
    try_except
      (md <- gen topic length tone language task_id ;;
       match truthy md with
       | None => ret (None, None)
       | Some markdown_text =>
           pf <- render markdown_text topic language task_id ;;
           match truthy pf with
           | None => ret (None, None)
           | Some pdf_file =>
               log_info (tag task_id ++ "Khutbah generation complete!") ;;;
               ret (Some pdf_file, Some markdown_text)
           end
       end)
      (fun e => log_error (tag task_id ++ "Khutbah generation failed: " ++ exn_str e) ;;;
                ret (None, None)).

(** [KhutbahMaker.generate_khutbah] *)
Definition generate_khutbah (E : env) : string -> string -> string -> string ->
                                       M (option string * option string) :=
  generate_with (get_taskid E) (gen_stage E) (pdf_stage E).


(** ** Observations on runs *)

(** The documents written to disk, in order. *)
Fixpoint written (st : list event) : list pdf_doc :=
  match st with
  | EvWrite _ d :: st' => d :: written st'
  | _ :: st' => written st'
  | [] => []
  end.


Fixpoint str_all (p : ascii -> bool) (s : string) : bool :=
  match s with
  | String c r => p c && str_all p r
  | EmptyString => true
  end.

Definition word_or_hyphen (c : ascii) : bool := is_word c || Ascii.eqb c "-"%char.

(** The five languages offered by the docstring of [generate_khutbah]. *)
Definition language_labels : list string :=
  ["Bahasa Malaysia"; "Arabic"; "English"; "Mandarin"; "Tamil"].

Definition pdf_path (E : env) (topic language : string) : string :=
  path_join (gettempdir E) (clean_filename topic language ++ ".pdf").

(** The document [__khutbah_to_pdf] saves on the synthesized-title branch. *)
Definition rendered_doc (E : env) (markdown_text topic : string) : pdf_doc :=
  set_meta "creator" "KhutbahMaker"
    (set_meta "author" "Ikmal Said"
      (set_meta "subject" ("Islamic Khutbah on " ++ topic)
        (set_meta "title" ("Khutbah on " ++ topic)
          (add_section (mkPdf 3 [] (pdf_meta0 E)) (mkSection markdown_text true css))))).

(** A concrete configuration: the model answers [response], saving succeeds. *)
Definition demo_env (response : string) : env :=
  mkEnv None "gemini-2.0-flash-thinking-exp-01-21" (fun _ _ => ret response)
        "/tmp" [] (fun _ _ => None) (ret "20261019_120000") (ret "0123456789abcdef").


Definition demo_render_trace : list event :=
  snd (pdf_stage (demo_env "") "Body" "Patience" "English" "t" []).

Definition contains (x s : string) : Prop := exists a b, s = a ++ x ++ b.

Definition not_slash (c : ascii) : bool := negb (Ascii.eqb c "/"%char).

(** * Lemmas *)

Lemma scan_tag_spec : forall u, scan_tag u = option_map sub_fence_tag (letters_nl u).
Proof.
  induction u as [|c u IH]; [reflexivity|].
  cbn [scan_tag letters_nl]. destruct (is_nl c); [reflexivity|].
  destruct (is_alpha c); [exact IH|reflexivity].
Qed.

Lemma sub_fence_tag_unfold : forall c r,
  sub_fence_tag (String c r) =
  match head_match_tag (String c r) with
  | Some r' => sub_fence_tag r'
  | None => String c (sub_fence_tag r)
  end.
Proof.
  intros c [|c2 [|c3 r3]]; try reflexivity.
  change (sub_fence_tag (String c (String c2 (String c3 r3))))
    with (if is_tick c && is_tick c2 && is_tick c3 then
            match scan_tag r3 with
            | Some out => out
            | None => String c (sub_fence_tag (String c2 (String c3 r3)))
            end
          else String c (sub_fence_tag (String c2 (String c3 r3)))).
  cbn [head_match_tag]. rewrite scan_tag_spec.
  destruct (is_tick c && is_tick c2 && is_tick c3); [|reflexivity].
  destruct (letters_nl r3); reflexivity.
Qed.

Lemma sub_fence_unfold : forall c r,
  sub_fence (String c r) =
  match head_match_fence (String c r) with
  | Some r' => sub_fence r'
  | None => String c (sub_fence r)
  end.
Proof.
  intros c [|c2 [|c3 r3]]; try reflexivity.
  cbn [sub_fence head_match_fence].
  destruct (is_tick c && is_tick c2 && is_tick c3); [|reflexivity].
  destruct r3 as [|c4 r4]; [reflexivity|].
  destruct (is_nl c4); reflexivity.
Qed.

Lemma is_tick_true : forall c, is_tick c = true -> c = tick.
Proof. intros c H. apply Ascii.eqb_eq. exact H. Qed.

Lemma head_match_tag_none : forall c r,
  is_tick c && starts2ticks r = false -> head_match_tag (String c r) = None.
Proof.
  intros c [|d [|e r]] H; try reflexivity.
  cbn [head_match_tag]. cbn [starts2ticks] in H.
  rewrite andb_assoc in H. rewrite H. reflexivity.
Qed.

Lemma head_match_fence_none : forall c r,
  is_tick c && starts2ticks r = false -> head_match_fence (String c r) = None.
Proof.
  intros c [|d [|e r]] H; try reflexivity.
  cbn [head_match_fence]. cbn [starts2ticks] in H.
  rewrite andb_assoc in H. rewrite H. reflexivity.
Qed.


Lemma sub_fence_plain : forall c r,
  is_tick c = false -> sub_fence (String c r) = String c (sub_fence r).
Proof.
  intros c r H. rewrite sub_fence_unfold, head_match_fence_none; [reflexivity|].
  rewrite H. reflexivity.
Qed.

Lemma has3_cons : forall c x, has3 (String c x) = false ->
  is_tick c && starts2ticks x = false /\ has3 x = false.
Proof. intros c x H. cbn [has3] in H. apply orb_false_iff in H. exact H. Qed.

(** ** Cleaning a fenced block *)

Lemma letters_nl_app : forall lang u,
  forallb is_alpha (list_ascii_of_string lang) = true ->
  letters_nl (lang ++ String nl u) = Some u.
Proof.
  induction lang as [|c lang IH]; intros u H; [reflexivity|].
  cbn [forallb list_ascii_of_string] in H. apply andb_true_iff in H as [Ha Hl].
  cbn [append letters_nl].
  assert (Hn : is_nl c = false).
  { destruct (is_nl c) eqn:E; [|reflexivity].
    apply Ascii.eqb_eq in E. subst c. discriminate Ha. }
  rewrite Hn, Ha. apply IH, Hl.
Qed.

Ltac tick_cases c :=
  let Hc := fresh "Hc" in
  destruct (is_tick c) eqn:Hc; [apply is_tick_true in Hc; subst c|].

Lemma head_match_tag_app_fence : forall c t,
  is_tick c && starts2ticks t = false -> head_match_tag (String c (t ++ fence)) = None.
Proof.
  intros c t H. tick_cases c.
  - destruct t as [|d [|e t]]; [reflexivity| |].
    + tick_cases d; [reflexivity|]. apply head_match_tag_none.
      simpl. rewrite Hc. reflexivity.
    + apply head_match_tag_none. exact H.
  - apply head_match_tag_none. rewrite Hc. reflexivity.
Qed.

Lemma sub_fence_tag_app_fence : forall t,
  has3 t = false -> sub_fence_tag (t ++ fence) = t ++ fence.
Proof.
  induction t as [|c t IH]; intros H; [reflexivity|].
  apply has3_cons in H as [H1 H2].
  cbn [append]. rewrite sub_fence_tag_unfold, head_match_tag_app_fence by exact H1.
  rewrite IH by exact H2. reflexivity.
Qed.

Lemma sub_fence_app_fence : forall t,
  has3 t = false -> sub_fence (t ++ fence) = t.
Proof.
  induction t as [|c t IH]; intros H; [reflexivity|].
  apply has3_cons in H as [H1 H2].
  cbn [append]. tick_cases c.
  - destruct t as [|d [|e t]]; [reflexivity| |].
    + tick_cases d; [reflexivity|].
      rewrite sub_fence_unfold, head_match_fence_none by (simpl; rewrite Hc; reflexivity).
      rewrite IH by exact H2. reflexivity.
    + rewrite sub_fence_unfold, head_match_fence_none by exact H1.
      rewrite IH by exact H2. reflexivity.
  - rewrite sub_fence_plain by exact Hc. rewrite IH by exact H2. reflexivity.
Qed.

(** ** No three backticks survive cleaning *)

Lemma head_match_fence_shorter : forall s r,
  head_match_fence s = Some r -> String.length r < String.length s.
Proof.
  intros [|c1 [|c2 [|c3 r3]]] r H; try discriminate H.
  cbn [head_match_fence] in H.
  destruct (is_tick c1 && is_tick c2 && is_tick c3); [|discriminate H].
  injection H as <-. destruct r3 as [|c4 r4]; cbn [String.length]; [lia|].
  destruct (is_nl c4); cbn [String.length]; lia.
Qed.

Lemma starts2ticks_sub_fence : forall r,
  starts2ticks r = false -> starts2ticks (sub_fence r) = false.
Proof.
  intros [|d [|e r]] H; try reflexivity.
  cbn [starts2ticks] in H.
  assert (Hn : is_tick d && starts2ticks (String e r) = false).
  { destruct r as [|f r]; cbn [starts2ticks]; [apply andb_false_r|].
    destruct (is_tick d), (is_tick e); cbn in *; congruence. }
  rewrite sub_fence_unfold, head_match_fence_none by exact Hn.
  tick_cases d.
  - assert (He : is_tick e = false) by exact H.
    rewrite sub_fence_plain by exact He. cbn [starts2ticks]. rewrite He.
    apply andb_false_r.
  - destruct (sub_fence (String e r)) as [|x y]; [reflexivity|].
    cbn [starts2ticks]. rewrite Hc. reflexivity.
Qed.

Lemma has3_sub_fence_len : forall n s, String.length s <= n -> has3 (sub_fence s) = false.
Proof.
  induction n as [|n IH]; intros [|c r] Hl; try reflexivity.
  - cbn [String.length] in Hl. lia.
  - rewrite sub_fence_unfold.
    destruct (head_match_fence (String c r)) as [r'|] eqn:Hm.
    + apply IH. apply head_match_fence_shorter in Hm. cbn [String.length] in *. lia.
    + cbn [has3]. apply orb_false_iff. split.
      * tick_cases c; [|reflexivity].
        apply starts2ticks_sub_fence.
        destruct (starts2ticks r) eqn:Hs; [|reflexivity].
        destruct r as [|d [|e r]]; try discriminate Hs.
        cbn [starts2ticks] in Hs. apply andb_true_iff in Hs as [Hd He].
        apply is_tick_true in Hd, He. subst d e. discriminate Hm.
      * apply IH. cbn [String.length] in Hl. lia.
Qed.

Lemma has3_sub_fence : forall s, has3 (sub_fence s) = false.
Proof. intros s. apply (has3_sub_fence_len (String.length s)). lia. Qed.

Lemma starts2ticks_app : forall p q, starts2ticks p = true -> starts2ticks (p ++ q) = true.
Proof. intros [|a [|b p]] q H; try discriminate H. exact H. Qed.

Lemma has3_app_l : forall p q, has3 (p ++ q) = false -> has3 p = false.
Proof.
  induction p as [|c p IH]; intros q H; [reflexivity|].
  cbn [append] in H. apply has3_cons in H as [H1 H2].
  cbn [has3]. apply orb_false_iff. split; [|exact (IH q H2)].
  destruct (is_tick c && starts2ticks p) eqn:E; [|reflexivity].
  apply andb_true_iff in E as [E1 E2].
  rewrite E1, (starts2ticks_app p q E2) in H1. discriminate H1.
Qed.

Lemma has3_app_r : forall p q, has3 (p ++ q) = false -> has3 q = false.
Proof.
  induction p as [|c p IH]; intros q H; [exact H|].
  apply IH. apply has3_cons in H as [_ H]. exact H.
Qed.

Lemma lstrip_suffix : forall s, exists p, s = p ++ lstrip s.
Proof.
  induction s as [|c s [p IH]]; [exists ""; reflexivity|].
  cbn [lstrip]. destruct (is_space c).
  - exists (String c p). cbn [append]. rewrite <- IH. reflexivity.
  - exists "". reflexivity.
Qed.

Lemma rstrip_prefix : forall s, exists q, s = rstrip s ++ q.
Proof.
  induction s as [|c s [q IH]]; [exists ""; reflexivity|].
  cbn [rstrip]. destruct (is_space c && String.eqb (rstrip s) "").
  - exists (String c s). reflexivity.
  - exists q. cbn [append]. rewrite <- IH. reflexivity.
Qed.

Lemma has3_strip : forall s, has3 s = false -> has3 (strip s) = false.
Proof.
  intros s H. unfold strip.
  destruct (lstrip_suffix s) as [p Hp].
  assert (H1 : has3 (lstrip s) = false).
  { rewrite Hp in H. exact (has3_app_r _ _ H). }
  destruct (rstrip_prefix (lstrip s)) as [q Hq].
  rewrite Hq in H1. exact (has3_app_l _ _ H1).
Qed.



Lemma string_app_assoc : forall a b c : string, (a ++ b) ++ c = a ++ (b ++ c).
Proof. induction a as [|x a IH]; intros b c; [reflexivity|]. cbn. rewrite IH. reflexivity. Qed.







(** ** The renderer and the orchestration *)

Lemma pdf_stage_eq : forall E md topic language tid st,
  pdf_stage E md topic language tid st =
  let path := pdf_path E topic language in
  let st1 := app st [EvLog Info (tag tid ++ "Generating Khutbah PDF: " ++ path)] in
  let fail msg :=
    (Ret None, app st1 [EvLog Error (tag tid ++ "Khutbah PDF generation failed: " ++ msg)]) in
  if startswith "# " md then fail (exn_str unbound_title)
  else match save_fails E (rendered_doc E md topic) path with
       | None => (Ret (Some path), app st1 [EvWrite path (rendered_doc E md topic)])
       | Some (Exc _ m) => fail m
       | Some (BaseExc n m) => (Raise (BaseExc n m), st1)
       end.
Proof.
  intros. unfold pdf_stage.
  cbv [try_except bind log_info log_error emit ret raise pdf_save].
  destruct (startswith "# " md); [reflexivity|]. cbn [negb].
  unfold rendered_doc, pdf_path, clean_filename. cbv zeta.
  destruct (save_fails _ _ _) as [[n m|n m]|]; reflexivity.
Qed.

Lemma truthy_some : forall o s, truthy o = Some s -> o = Some s /\ s <> "".
Proof.
  intros [o|] s H; [|discriminate H]. cbn [truthy] in H.
  destruct (String.eqb o "") eqn:E; [discriminate H|]. injection H as <-.
  split; [reflexivity|]. intros ->. discriminate E.
Qed.

Lemma generate_with_success : forall get_tid gen render topic length tone language st p t st',
  generate_with get_tid gen render topic length tone language st = (Ret (Some p, Some t), st') ->
  exists tid s1 s2, render t topic language tid s1 = (Ret (Some p), s2).
Proof.
  intros until st'. unfold generate_with.
  cbv [bind ret emit log_info log_error try_except].
  destruct (String.eqb topic ""); [discriminate|].
  destruct (get_tid st) as [[tid|e] s1]; [|discriminate].
  destruct (gen topic length tone language tid _) as [[md|e] s2];
    [|destruct e; discriminate].
  destruct (truthy md) as [m|] eqn:Hm; [|discriminate].
  destruct (render m topic language tid s2) as [[pf|e] s3] eqn:Hr;
    [|destruct e; discriminate].
  destruct (truthy pf) as [q|] eqn:Hq; [|discriminate].
  intros H. injection H as -> -> _.
  apply truthy_some in Hq as [-> _]. exists tid, s2, s3. exact Hr.
Qed.

(** When the generator stage answers with a falsy value, the result is
    fixed before the renderer could run. *)
Lemma generate_with_gen_falsy : forall get_tid gen render topic length tone language st
    tid s1 md s2,
  topic <> "" -> get_tid st = (Ret tid, s1) ->
  gen topic length tone language tid
      (app s1 [EvLog Info (tag tid ++ "Khutbah generation started!")]) = (Ret md, s2) ->
  truthy md = None ->
  generate_with get_tid gen render topic length tone language st = (Ret (None, None), s2).
Proof.
  intros until s2. intros Ht Hg Hgen Hm. unfold generate_with.
  cbv [bind ret emit log_info log_error try_except].
  destruct (String.eqb topic "") eqn:E; [apply String.eqb_eq in E; contradiction|].
  rewrite Hg, Hgen, Hm. reflexivity.
Qed.


Lemma str_all_app : forall p a b, str_all p (a ++ b) = str_all p a && str_all p b.
Proof.
  induction a as [|c a IH]; intros b; [reflexivity|].
  cbn [append str_all]. rewrite IH. apply andb_assoc.
Qed.

Lemma sanitize_safe : forall s, str_all word_or_hyphen (sanitize s) = true.
Proof.
  induction s as [|c s IH]; [reflexivity|].
  cbn [sanitize str_all]. rewrite IH, andb_true_r.
  destruct (is_word c || Ascii.eqb c "-"%char) eqn:E; [exact E|reflexivity].
Qed.


(** ** Lemmas for the further properties *)

Lemma sub_fence_tag_no3 : forall s, has3 s = false -> sub_fence_tag s = s.
Proof.
  induction s as [|c s IH]; intros H; [reflexivity|].
  apply has3_cons in H as [H1 H2].
  rewrite sub_fence_tag_unfold, head_match_tag_none by exact H1.
  rewrite IH by exact H2. reflexivity.
Qed.

Lemma sub_fence_no3 : forall s, has3 s = false -> sub_fence s = s.
Proof.
  induction s as [|c s IH]; intros H; [reflexivity|].
  apply has3_cons in H as [H1 H2].
  rewrite sub_fence_unfold, head_match_fence_none by exact H1.
  rewrite IH by exact H2. reflexivity.
Qed.

Lemma lstrip_head : forall s,
  lstrip s = "" \/ exists c r, lstrip s = String c r /\ is_space c = false.
Proof.
  induction s as [|c s IH]; [left; reflexivity|].
  cbn [lstrip]. destruct (is_space c) eqn:E; [exact IH|].
  right. exists c, s. split; [reflexivity|exact E].
Qed.

Lemma rstrip_nonspace : forall c r, is_space c = false -> rstrip (String c r) = String c (rstrip r).
Proof. intros c r H. cbn [rstrip]. rewrite H. reflexivity. Qed.

Lemma rstrip_idem : forall s, rstrip (rstrip s) = rstrip s.
Proof.
  induction s as [|c s IH]; [reflexivity|].
  cbn [rstrip]. destruct (is_space c && String.eqb (rstrip s) "") eqn:E; [reflexivity|].
  cbn [rstrip]. rewrite IH, E. reflexivity.
Qed.

Lemma strip_idem : forall s, strip (strip s) = strip s.
Proof.
  intros s. unfold strip.
  destruct (lstrip_head s) as [-> | [c [r [-> Hc]]]]; [reflexivity|].
  rewrite rstrip_nonspace by exact Hc. cbn [lstrip]. rewrite Hc.
  rewrite <- rstrip_nonspace by exact Hc. apply rstrip_idem.
Qed.

Lemma rstrip_last : forall z p c, rstrip z = p ++ String c "" -> is_space c = false.
Proof.
  induction z as [|d z IH]; intros p c H; [destruct p; discriminate H|].
  cbn [rstrip] in H. destruct (is_space d && String.eqb (rstrip z) "") eqn:E;
    [destruct p; discriminate H|].
  destruct p as [|e p].
  - injection H as -> Hz. rewrite Hz in E. rewrite andb_true_r in E. exact E.
  - injection H as _ Hz. exact (IH p c Hz).
Qed.

Lemma sanitize_char_idem : forall c,
  (if is_word (if is_word c || Ascii.eqb c "-"%char then c else "_"%char)
      || Ascii.eqb (if is_word c || Ascii.eqb c "-"%char then c else "_"%char) "-"%char
   then (if is_word c || Ascii.eqb c "-"%char then c else "_"%char) else "_"%char)
  = (if is_word c || Ascii.eqb c "-"%char then c else "_"%char).
Proof. intros c. destruct (is_word c || Ascii.eqb c "-"%char) eqn:E; [rewrite E|]; reflexivity. Qed.

Lemma str_all_impl : forall (p q : ascii -> bool) s,
  (forall c, p c = true -> q c = true) -> str_all p s = true -> str_all q s = true.
Proof.
  intros p q s Hpq. induction s as [|c s IH]; intros H; [reflexivity|].
  cbn [str_all] in *. apply andb_true_iff in H as [H1 H2].
  rewrite (Hpq c H1), (IH H2). reflexivity.
Qed.

Lemma lower_char_slash : forall c, not_slash (lower_char c) = not_slash c.
Proof. intros [[] [] [] [] [] [] [] []]; reflexivity. Qed.

Lemma replace_space_char_slash : forall c,
  not_slash (if Ascii.eqb c " "%char then "_"%char else c) = not_slash c.
Proof. intros [[] [] [] [] [] [] [] []]; reflexivity. Qed.

Lemma language_suffix_slash : forall s,
  str_all not_slash (replace_space (lower s)) = str_all not_slash s.
Proof.
  induction s as [|c s IH]; [reflexivity|].
  cbn [lower replace_space str_all]. rewrite IH, replace_space_char_slash, lower_char_slash.
  reflexivity.
Qed.

Lemma not_slash_prefix : forall b, str_all not_slash b = true -> String.prefix "/" b = false.
Proof.
  intros [|c b] H; [reflexivity|]. cbn [str_all] in H. apply andb_true_iff in H as [H _].
  cbn [String.prefix]. destruct (ascii_dec "/"%char c) as [<-|_]; [discriminate H|reflexivity].
Qed.

Lemma append_nonempty_r : forall a b : string, b <> "" -> a ++ b <> "".
Proof. intros [|c a] b H; [exact H|discriminate]. Qed.

Lemma pdf_path_nonempty : forall E topic language, pdf_path E topic language <> "".
Proof.
  intros E topic language. unfold pdf_path, path_join.
  assert (Hb : clean_filename topic language ++ ".pdf" <> "")
    by (apply append_nonempty_r; discriminate).
  destruct (String.prefix "/" _); [exact Hb|].
  destruct (String.eqb (gettempdir E) "" || ends_with_slash (gettempdir E));
    apply append_nonempty_r; [exact Hb|discriminate].
Qed.

Lemma truthy_nonempty : forall s, s <> "" -> truthy (Some s) = Some s.
Proof.
  intros s H. cbn [truthy]. destruct (String.eqb s "") eqn:E; [|reflexivity].
  apply String.eqb_eq in E. contradiction.
Qed.

Lemma written_app : forall a b, written (app a b) = app (written a) (written b).
Proof.
  induction a as [|[] a IH]; intros b; cbn [app written]; rewrite ?IH; reflexivity.
Qed.

Lemma gen_stage_result : forall E topic length tone language tid st,
  match fst (gen_stage E topic length tone language tid st) with
  | Ret (Some t) => exists text, t = clean_markdown text
  | Ret None => True
  | Raise (Exc _ _) => False
  | Raise (BaseExc _ _) => True
  end.
Proof.
  intros. unfold gen_stage.
  cbv [try_except bind ret emit log_info log_error].
  destruct (api_key E) as [k|]; [destruct (String.eqb k "")|];
    destruct (generate_content E _ _ _) as [[text|[n m|n m]] s']; cbn [fst];
    solve [exists text; reflexivity | exact I].
Qed.

Lemma generate_with_success2 : forall get_tid gen render topic length tone language st p t st',
  generate_with get_tid gen render topic length tone language st = (Ret (Some p, Some t), st') ->
  exists tid s1 s2 s3 md,
    gen topic length tone language tid s1 = (Ret md, s2) /\ truthy md = Some t /\
    render t topic language tid s2 = (Ret (Some p), s3) /\
    st' = app s3 [EvLog Info (tag tid ++ "Khutbah generation complete!")].
Proof.
  intros until st'. unfold generate_with.
  cbv [bind ret emit log_info log_error try_except].
  destruct (String.eqb topic ""); [discriminate|].
  destruct (get_tid st) as [[tid|e] s1]; [|discriminate].
  destruct (gen topic length tone language tid _) as [[md|e] s2] eqn:Hg;
    [|destruct e; discriminate].
  destruct (truthy md) as [m|] eqn:Hm; [|discriminate].
  destruct (render m topic language tid s2) as [[pf|e] s3] eqn:Hr;
    [|destruct e; discriminate].
  destruct (truthy pf) as [q|] eqn:Hq; [|discriminate].
  intros H. injection H as -> -> <-.
  apply truthy_some in Hq as [-> _]. eexists tid, _, s2, s3, md.
  split; [exact Hg|]. split; [exact Hm|]. split; [exact Hr|reflexivity].
Qed.

Lemma has3_clean_markdown : forall s, has3 (clean_markdown s) = false.
Proof. intros s. unfold clean_markdown. apply has3_strip, has3_sub_fence. Qed.

Lemma clean_markdown_no3 : forall s, has3 s = false -> clean_markdown s = strip s.
Proof.
  intros s H. unfold clean_markdown.
  rewrite sub_fence_tag_no3 by exact H. rewrite sub_fence_no3 by exact H. reflexivity.
Qed.

Lemma clean_markdown_idem : forall s, clean_markdown (clean_markdown s) = clean_markdown s.
Proof.
  intros s. rewrite clean_markdown_no3 by apply has3_clean_markdown.
  unfold clean_markdown at 1 2. apply strip_idem.
Qed.

Lemma strip_head : forall s c r, strip s = String c r -> is_space c = false.
Proof.
  intros s c r H. unfold strip in H.
  destruct (lstrip_head s) as [E | [d [r' [E Hd]]]]; rewrite E in H; [discriminate H|].
  rewrite rstrip_nonspace in H by exact Hd. injection H as <- _. exact Hd.
Qed.

Lemma string_length_app : forall a b : string,
  String.length (a ++ b) = String.length a + String.length b.
Proof. induction a as [|c a IH]; intros b; cbn [append String.length]; [|rewrite IH]; reflexivity. Qed.

Lemma letters_nl_shorter : forall u r, letters_nl u = Some r -> String.length r < String.length u.
Proof.
  induction u as [|c u IH]; intros r H; [discriminate H|].
  cbn [letters_nl] in H. cbn [String.length].
  destruct (is_nl c); [injection H as <-; lia|].
  destruct (is_alpha c); [apply IH in H; lia|discriminate H].
Qed.

Lemma head_match_tag_shorter : forall s r,
  head_match_tag s = Some r -> String.length r < String.length s.
Proof.
  intros [|c1 [|c2 [|c3 r3]]] r H; try discriminate H.
  cbn [head_match_tag] in H.
  destruct (is_tick c1 && is_tick c2 && is_tick c3); [|discriminate H].
  apply letters_nl_shorter in H. cbn [String.length]. lia.
Qed.

Lemma sub_fence_tag_len : forall n s, String.length s <= n ->
  String.length (sub_fence_tag s) <= String.length s.
Proof.
  induction n as [|n IH]; intros [|c r] Hl; cbn [String.length] in Hl; try (cbn; lia).
  rewrite sub_fence_tag_unfold.
  destruct (head_match_tag (String c r)) as [r'|] eqn:Hm.
  - apply head_match_tag_shorter in Hm. cbn [String.length] in *.
    specialize (IH r' ltac:(lia)). lia.
  - cbn [String.length]. specialize (IH r ltac:(lia)). lia.
Qed.

Lemma sub_fence_len : forall n s, String.length s <= n ->
  String.length (sub_fence s) <= String.length s.
Proof.
  induction n as [|n IH]; intros [|c r] Hl; cbn [String.length] in Hl; try (cbn; lia).
  rewrite sub_fence_unfold.
  destruct (head_match_fence (String c r)) as [r'|] eqn:Hm.
  - apply head_match_fence_shorter in Hm. cbn [String.length] in *.
    specialize (IH r' ltac:(lia)). lia.
  - cbn [String.length]. specialize (IH r ltac:(lia)). lia.
Qed.

Lemma strip_len : forall s, String.length (strip s) <= String.length s.
Proof.
  intros s. unfold strip.
  destruct (lstrip_suffix s) as [p Hp]. destruct (rstrip_prefix (lstrip s)) as [q Hq].
  assert (H1 := f_equal String.length Hp). assert (H2 := f_equal String.length Hq).
  rewrite string_length_app in H1, H2. lia.
Qed.

Lemma sanitize_len_idem : forall s,
  String.length (sanitize s) = String.length s /\ sanitize (sanitize s) = sanitize s.
Proof.
  induction s as [|c s [IH1 IH2]]; [split; reflexivity|].
  cbn [sanitize String.length]. rewrite IH1, IH2, sanitize_char_idem. split; reflexivity.
Qed.

Lemma sanitize_word_id : forall s, str_all word_or_hyphen s = true -> sanitize s = s.
Proof.
  induction s as [|c s IH]; intros H; [reflexivity|].
  cbn [str_all] in H. apply andb_true_iff in H as [H1 H2].
  cbn [sanitize]. unfold word_or_hyphen in H1. rewrite H1, IH by exact H2. reflexivity.
Qed.

Lemma word_or_hyphen_not_slash : forall c, word_or_hyphen c = true -> not_slash c = true.
Proof. intros [[] [] [] [] [] [] [] []] H; first [reflexivity | discriminate H]. Qed.

Lemma clean_filename_no_slash : forall topic language,
  str_all not_slash language = true ->
  str_all not_slash (clean_filename topic language ++ ".pdf") = true.
Proof.
  intros topic language H. unfold clean_filename.
  rewrite !str_all_app, language_suffix_slash, H.
  rewrite (str_all_impl _ _ _ word_or_hyphen_not_slash (sanitize_safe topic)). reflexivity.
Qed.

Lemma gen_stage_answer_written : forall E resp topic length tone language tid s,
  (forall m p s', generate_content E m p s' = (Ret resp, s')) ->
  exists s', gen_stage E topic length tone language tid s = (Ret (Some (clean_markdown resp)), s')
             /\ written s' = written s.
Proof.
  intros E resp topic length tone language tid s Hgc. unfold gen_stage.
  cbv [try_except bind ret emit log_info log_error].
  destruct (api_key E) as [k|]; [destruct (String.eqb k "")|];
    rewrite Hgc; eexists; (split; [reflexivity|]);
    rewrite ?written_app; cbn [written]; rewrite ?app_nil_r; reflexivity.
Qed.

(** ** Examples *)

Example clean_ex1 :
  clean_markdown (fence ++ "markdown" ++ nls ++ "  # T" ++ nls ++ fence) = "# T".
Proof. reflexivity. Qed.

Example clean_ex2 :
  clean_markdown ("a" ++ fence ++ "py" ++ nls ++ "x" ++ nls ++ fence ++ nls ++ "b")
  = "ax" ++ nls ++ "b".
Proof. reflexivity. Qed.

Example clean_interior_blocks :
  clean_markdown (fence ++ "markdown" ++ nls ++ "# T" ++ nls ++ fence ++ "python" ++ nls ++
                  "x = 1" ++ nls ++ fence ++ nls ++ "End" ++ nls ++ fence)
  = "# T" ++ nls ++ "x = 1" ++ nls ++ "End".
Proof. reflexivity. Qed.

Example heading_response_gives_nothing :
  fst (generate_khutbah (demo_env ("# Patience" ++ nls ++ nls ++ "Body"))
         "Patience" "Short" "Inspirational" "English" [])
  = Ret (None, None).
Proof. vm_compute. reflexivity. Qed.

(** * Claims *)

(** ** C1 *)

(** C1: when the cleaned text already starts with ["# "], the renderer does
    not succeed: the local [title] is read before any assignment, the
    [UnboundLocalError] is caught and logged, nothing is written and the
    renderer returns [None]. *)
Theorem pdf_stage_heading_fails : forall E md topic language tid st,
  startswith "# " md = true ->
  pdf_stage E md topic language tid st =
  (Ret None,
   app (app st [EvLog Info (tag tid ++ "Generating Khutbah PDF: " ++ pdf_path E topic language)])
       [EvLog Error (tag tid ++ "Khutbah PDF generation failed: " ++ exn_str unbound_title)]).
Proof. intros E md topic language tid st H. rewrite pdf_stage_eq, H. reflexivity. Qed.

Lemma pdf_stage_heading_fails_witness :
  startswith "# " ("# Patience" ++ nls ++ nls ++ "Body") = true /\
  pdf_stage (demo_env "") ("# Patience" ++ nls ++ nls ++ "Body") "Patience" "English" "t" [] =
  (Ret None,
   app (app [] [EvLog Info (tag "t" ++ "Generating Khutbah PDF: " ++
                           pdf_path (demo_env "") "Patience" "English")])
       [EvLog Error (tag "t" ++ "Khutbah PDF generation failed: " ++ exn_str unbound_title)]).
Proof.
  split; [reflexivity|].
  apply (pdf_stage_heading_fails (demo_env "") _ "Patience" "English" "t" []). reflexivity.
Defined.

(** ** C2 *)

(** C2, counterexample: for the cleaned text ["Body"], the section handed to
    the document is ["Body"], which does not begin with a top-level heading;
    the synthesized title is ["Khutbah on Patience"]. *)
Lemma pdf_stage_heading_not_in_document :
  map (fun d => map sec_text (sections d)) (written demo_render_trace) = [["Body"]] /\
  startswith "# " "Body" = false /\
  map (fun d => dict_get "title" (meta d)) (written demo_render_trace)
  = [Some "Khutbah on Patience"].
Proof. vm_compute. repeat split. Qed.

(** C2, amended: when the cleaned text does not start with ["# "] and the
    save succeeds, the renderer takes the synthesized-title branch: it binds
    the title ["Khutbah on {topic}"], stamps it as the metadata title of the
    document it writes, and returns the path. *)
Theorem pdf_stage_synthesized_title : forall E md topic language tid st,
  startswith "# " md = false ->
  save_fails E (rendered_doc E md topic) (pdf_path E topic language) = None ->
  pdf_stage E md topic language tid st =
  (Ret (Some (pdf_path E topic language)),
   app (app st [EvLog Info (tag tid ++ "Generating Khutbah PDF: " ++ pdf_path E topic language)])
       [EvWrite (pdf_path E topic language) (rendered_doc E md topic)]) /\
  dict_get "title" (meta (rendered_doc E md topic)) = Some ("Khutbah on " ++ topic).
Proof.
  intros E md topic language tid st Hh Hs.
  rewrite pdf_stage_eq, Hh. cbv zeta. rewrite Hs. split; reflexivity.
Qed.

Lemma pdf_stage_synthesized_title_witness :
  startswith "# " "Body" = false /\
  save_fails (demo_env "") (rendered_doc (demo_env "") "Body" "Patience")
             (pdf_path (demo_env "") "Patience" "English") = None /\
  dict_get "title" (meta (rendered_doc (demo_env "") "Body" "Patience"))
  = Some ("Khutbah on " ++ "Patience").
Proof.
  split; [reflexivity|]. split; [reflexivity|].
  exact (proj2 (pdf_stage_synthesized_title (demo_env "") "Body" "Patience" "English" "t" []
                  eq_refl eq_refl)).
Defined.

(** ** C3 *)

(** C3, counterexample: a successful render for the topic ["Patience"]
    stamps the subject ["Islamic Khutbah on Patience"], not
    ["Sermon on Patience"]. *)
Lemma pdf_stage_subject_literal :
  fst (pdf_stage (demo_env "") "Body" "Patience" "English" "t" [])
  = Ret (Some "/tmp/Patience_khutbah_english.pdf") /\
  map (fun d => dict_get "subject" (meta d)) (written demo_render_trace)
  = [Some "Islamic Khutbah on Patience"] /\
  "Islamic Khutbah on Patience" <> "Sermon on Patience".
Proof. split; [vm_compute; reflexivity|]. split; [vm_compute; reflexivity|]. discriminate. Qed.

(** C3, amended: every successful render writes exactly one document, whose
    metadata has subject ["Islamic Khutbah on {topic}"], author
    ["Ikmal Said"] and creator ["KhutbahMaker"]. *)
Theorem pdf_stage_metadata : forall E md topic language tid st p st',
  pdf_stage E md topic language tid st = (Ret (Some p), st') ->
  exists doc,
    st' = app (app st [EvLog Info (tag tid ++ "Generating Khutbah PDF: " ++ p)]) [EvWrite p doc] /\
    dict_get "subject" (meta doc) = Some ("Islamic Khutbah on " ++ topic) /\
    dict_get "author" (meta doc) = Some "Ikmal Said" /\
    dict_get "creator" (meta doc) = Some "KhutbahMaker".
Proof.
  intros E md topic language tid st p st' H.
  rewrite pdf_stage_eq in H. cbv zeta in H.
  destruct (startswith "# " md); [discriminate H|].
  destruct (save_fails E _ _) as [[n m|n m]|]; try discriminate H.
  injection H as <- <-. exists (rendered_doc E md topic).
  repeat split; reflexivity.
Qed.

Lemma pdf_stage_metadata_witness :
  exists doc,
    demo_render_trace =
    app (app [] [EvLog Info (tag "t" ++ "Generating Khutbah PDF: " ++
                            "/tmp/Patience_khutbah_english.pdf")])
        [EvWrite "/tmp/Patience_khutbah_english.pdf" doc] /\
    dict_get "subject" (meta doc) = Some ("Islamic Khutbah on " ++ "Patience") /\
    dict_get "author" (meta doc) = Some "Ikmal Said" /\
    dict_get "creator" (meta doc) = Some "KhutbahMaker".
Proof.
  apply (pdf_stage_metadata (demo_env "") "Body" "Patience" "English" "t" []
           "/tmp/Patience_khutbah_english.pdf").
  vm_compute. reflexivity.
Defined.

(** ** C4 *)




(** ** C5 *)

(** C5: for the empty topic, [generate_khutbah] logs the error and returns
    [(None, None)]; the result does not depend on the clock, [uuid4], the
    model or the renderer, none of which is used. *)
Theorem generate_khutbah_empty_topic : forall E length tone language st,
  generate_khutbah E "" length tone language st =
  (Ret (None, None), app st [EvLog Error "Topic is required!"]).
Proof. intros. reflexivity. Qed.

(** ** C6 *)

(** C6: when the generator stage answers [None] (or the empty text), the
    result is [(None, None)] and the final trace is the one the generator
    left, for every renderer: the renderer is not run. *)
Theorem generate_with_gen_failure_skips_render :
  forall get_tid gen render topic length tone language st tid s1 md s2,
  topic <> "" -> get_tid st = (Ret tid, s1) ->
  gen topic length tone language tid
      (app s1 [EvLog Info (tag tid ++ "Khutbah generation started!")]) = (Ret md, s2) ->
  truthy md = None ->
  generate_with get_tid gen render topic length tone language st = (Ret (None, None), s2).
Proof. exact generate_with_gen_falsy. Qed.

Lemma generate_with_gen_failure_skips_render_witness :
  generate_with (ret "t") (fun _ _ _ _ _ => ret None)
                (fun _ _ _ _ => raise (Exc "RuntimeError" "renderer called"))
                "Patience" "Short" "Inspirational" "English" []
  = (Ret (None, None), [EvLog Info (tag "t" ++ "Khutbah generation started!")]).
Proof.
  apply (generate_with_gen_failure_skips_render (ret "t") (fun _ _ _ _ _ => ret None)
           _ "Patience" "Short" "Inspirational" "English" [] "t" []
           None [EvLog Info (tag "t" ++ "Khutbah generation started!")]);
    [discriminate | reflexivity | reflexivity | reflexivity].
Defined.

(** ** C7 *)

(** C7, counterexample: for the topic ["Ramadan/Fasting!"] and the default
    language ["Bahasa Malaysia"] the file is
    [/tmp/Ramadan_Fasting__khutbah_bahasa_malaysia.pdf]: the language is
    lower-cased and its spaces replaced, not used as given. *)
Lemma generate_khutbah_path_language :
  fst (generate_khutbah (demo_env "Body") "Ramadan/Fasting!" "Short" "Inspirational"
         "Bahasa Malaysia" [])
  = Ret (Some "/tmp/Ramadan_Fasting__khutbah_bahasa_malaysia.pdf", Some "Body") /\
  "/tmp/Ramadan_Fasting__khutbah_bahasa_malaysia.pdf"
  <> path_join "/tmp" (sanitize "Ramadan/Fasting!" ++ "_khutbah_" ++ "Bahasa Malaysia" ++ ".pdf").
Proof. split; vm_compute; [reflexivity | discriminate]. Qed.

(** C7, amended: the path returned by [generate_khutbah] is
    [os.path.join(tempdir, sanitize(topic) ++ "_khutbah_" ++
    language.lower().replace(' ', '_') ++ ".pdf")]; the sanitized topic has
    only word characters and hyphens, and for each of the five documented
    languages so has the whole base name. *)
Theorem generate_khutbah_path : forall E topic length tone language st p t st',
  generate_khutbah E topic length tone language st = (Ret (Some p, Some t), st') ->
  p = pdf_path E topic language /\
  str_all word_or_hyphen (sanitize topic) = true /\
  (In language language_labels -> str_all word_or_hyphen (clean_filename topic language) = true).
Proof.
  intros E topic length tone language st p t st' H.
  apply generate_with_success in H as [tid [s1 [s2 H]]].
  rewrite pdf_stage_eq in H. cbv zeta in H.
  split; [|split; [apply sanitize_safe|]].
  - destruct (startswith "# " t); [discriminate H|].
    destruct (save_fails E _ _) as [[n m|n m]|]; try discriminate H.
    injection H as <-. reflexivity.
  - intros Hl. unfold clean_filename. rewrite str_all_app, sanitize_safe.
    cbn in Hl. repeat destruct Hl as [<-|Hl]; try reflexivity. contradiction.
Qed.

Lemma generate_khutbah_path_witness :
  "/tmp/Ramadan_Fasting__khutbah_english.pdf" = pdf_path (demo_env "Body") "Ramadan/Fasting!" "English" /\
  str_all word_or_hyphen (clean_filename "Ramadan/Fasting!" "English") = true.
Proof.
  destruct (generate_khutbah_path (demo_env "Body") "Ramadan/Fasting!" "Short" "Inspirational"
              "English" [] "/tmp/Ramadan_Fasting__khutbah_english.pdf" "Body"
              (snd (generate_khutbah (demo_env "Body") "Ramadan/Fasting!" "Short"
                      "Inspirational" "English" [])))
    as [Hp [_ Hb]].
  - vm_compute. reflexivity.
  - split; [exact Hp|]. apply Hb. cbn. right. right. left. reflexivity.
Defined.

(** ** C8 *)

(** C8, counterexample: an interior text containing three backticks loses
    them: cleaning ["```\na```b```"] gives ["ab"], not ["a```b"]. *)
Lemma clean_markdown_interior_ticks :
  clean_markdown (fence ++ "" ++ nls ++ ("a" ++ fence ++ "b") ++ fence)
  <> strip ("a" ++ fence ++ "b").
Proof. vm_compute. discriminate. Qed.

(** C8, amended: for a language tag made of ASCII letters (possibly empty)
    and an interior text [t] with no three consecutive backticks, cleaning
    ["```" ++ tag ++ "\n" ++ t ++ "```"] gives [t.strip()]. *)
Theorem clean_markdown_fenced : forall lang t,
  forallb is_alpha (list_ascii_of_string lang) = true ->
  has3 t = false ->
  clean_markdown (fence ++ lang ++ nls ++ t ++ fence) = strip t.
Proof.
  intros lang t Hl Ht. unfold clean_markdown. cbn [fence nls append].
  rewrite sub_fence_tag_unfold. cbn [head_match_tag]. simpl (is_tick tick). cbn [andb].
  rewrite letters_nl_app by exact Hl.
  rewrite sub_fence_tag_app_fence, sub_fence_app_fence by exact Ht.
  reflexivity.
Qed.

Lemma clean_markdown_fenced_witness :
  clean_markdown (fence ++ "python" ++ nls ++ "  # Title  " ++ fence) = strip "  # Title  ".
Proof. apply clean_markdown_fenced; reflexivity. Defined.

(** ** C9 *)

(** C9: the prompt is a function of its four arguments and contains each of
    them verbatim. *)
Theorem build_prompt_contains : forall topic length tone language,
  contains topic (build_prompt topic length tone language) /\
  contains length (build_prompt topic length tone language) /\
  contains tone (build_prompt topic length tone language) /\
  contains language (build_prompt topic length tone language).
Proof.
  intros topic length tone language. unfold contains, build_prompt.
  repeat split;
    [ exists ("You are an expert Islamic scholar tasked with writing a " ++ length ++
              " Friday khutbah (sermon) in " ++ language ++ " on the topic: ")
    | exists "You are an expert Islamic scholar tasked with writing a "
    | exists ("You are an expert Islamic scholar tasked with writing a " ++ length ++
              " Friday khutbah (sermon) in " ++ language ++ " on the topic: " ++ topic ++
              " with tone: ")
    | exists ("You are an expert Islamic scholar tasked with writing a " ++ length ++
              " Friday khutbah (sermon) in ") ];
    eexists; rewrite ?string_app_assoc; reflexivity.
Qed.

(** ** C10 *)




(** * Further properties of the code *)

(** ** [__clean_markdown] *)

(** X1: cleaning is idempotent: a cleaned text is left unchanged by a
    second cleaning. *)
Theorem clean_markdown_idempotent : forall s,
  clean_markdown (clean_markdown s) = clean_markdown s.
Proof. exact clean_markdown_idem. Qed.

(** X2: the cleaned text neither starts nor ends with a whitespace
    character. *)
Theorem clean_markdown_trimmed : forall s p c,
  clean_markdown s = String c p \/ clean_markdown s = p ++ String c "" ->
  is_space c = false.
Proof.
  intros s p c [H|H]; unfold clean_markdown, strip in H.
  - exact (strip_head _ _ _ H).
  - exact (rstrip_last _ _ _ H).
Qed.

Lemma clean_markdown_trimmed_witness :
  clean_markdown " Body " = String "B" "ody" /\ is_space "y"%char = false.
Proof.
  split; [vm_compute; reflexivity|].
  apply (clean_markdown_trimmed " Body " "Bod" "y"%char). right. vm_compute. reflexivity.
Defined.

(** X3: on a text with no three consecutive backticks both substitutions
    are the identity, and cleaning is [str.strip]. *)
Theorem clean_markdown_without_fence : forall s,
  has3 s = false -> clean_markdown s = strip s.
Proof. exact clean_markdown_no3. Qed.

Lemma clean_markdown_without_fence_witness :
  clean_markdown ("  a `` b" ++ nls ++ " ") = "a `` b".
Proof.
  rewrite (clean_markdown_without_fence ("  a `` b" ++ nls ++ " ") ltac:(vm_compute; reflexivity)).
  vm_compute. reflexivity.
Defined.

(** X4: no three consecutive backticks survive cleaning, whatever the input. *)
Theorem clean_markdown_no_triple_backtick : forall s, has3 (clean_markdown s) = false.
Proof. exact has3_clean_markdown. Qed.

(** X5: cleaning only deletes: the cleaned text is never longer than the input. *)
Theorem clean_markdown_shrinks : forall s,
  String.length (clean_markdown s) <= String.length s.
Proof.
  intros s. unfold clean_markdown.
  pose proof (strip_len (sub_fence (sub_fence_tag s))).
  pose proof (sub_fence_len _ (sub_fence_tag s) (le_n _)).
  pose proof (sub_fence_tag_len _ s (le_n _)). lia.
Qed.

(** ** The file name of [__khutbah_to_pdf] *)

(** X6: the topic sanitization keeps the length and is idempotent. *)
Theorem sanitize_length_idempotent : forall s,
  String.length (sanitize s) = String.length s /\ sanitize (sanitize s) = sanitize s.
Proof. exact sanitize_len_idem. Qed.

(** X7: the sanitization changes a topic exactly when the topic has a
    character other than a word character or a hyphen. *)
Theorem sanitize_fixed_iff : forall s,
  sanitize s = s <-> str_all word_or_hyphen s = true.
Proof.
  intros s. split.
  - intros H. rewrite <- H. apply sanitize_safe.
  - apply sanitize_word_id.
Qed.

(** X8: for a language without '/', the PDF path is the temp directory
    joined with a base name that has no '/': the file is created directly
    inside the temp directory, whatever the topic. *)
Theorem pdf_path_in_tempdir : forall E topic language,
  str_all not_slash language = true ->
  pdf_path E topic language =
    gettempdir E ++
    (if String.eqb (gettempdir E) "" || ends_with_slash (gettempdir E) then "" else "/") ++
    (clean_filename topic language ++ ".pdf") /\
  str_all not_slash (clean_filename topic language ++ ".pdf") = true.
Proof.
  intros E topic language H.
  pose proof (clean_filename_no_slash topic language H) as Hn.
  split; [|exact Hn].
  unfold pdf_path, path_join. rewrite (not_slash_prefix _ Hn).
  destruct (String.eqb (gettempdir E) "" || ends_with_slash (gettempdir E)); reflexivity.
Qed.

Lemma pdf_path_in_tempdir_witness :
  pdf_path (demo_env "Body") "../../etc/passwd" "Bahasa Malaysia"
  = "/tmp/" ++ "______etc_passwd_khutbah_bahasa_malaysia.pdf".
Proof.
  destruct (pdf_path_in_tempdir (demo_env "Body") "../../etc/passwd" "Bahasa Malaysia"
              ltac:(vm_compute; reflexivity)) as [H _].
  rewrite H. vm_compute. reflexivity.
Defined.

(** ** The renderer [__khutbah_to_pdf] *)

(** X9: every run of the renderer ends in one of three ways: it returns the
    path after writing exactly one document, made from the text it was given
    (only possible when that text does not start with '# '); it returns
    [None] having written nothing; or an exception outside [Exception]
    propagates, nothing written. No [Exception] ever escapes it. *)
Theorem pdf_stage_outcomes : forall E md topic language tid st,
  let '(o, st') := pdf_stage E md topic language tid st in
  match o with
  | Ret (Some p) =>
      p = pdf_path E topic language /\ startswith "# " md = false /\
      written st' = app (written st) [rendered_doc E md topic]
  | Ret None => written st' = written st
  | Raise (Exc _ _) => False
  | Raise (BaseExc _ _) => written st' = written st
  end.
Proof.
  intros. rewrite pdf_stage_eq. cbv zeta.
  destruct (startswith "# " md) eqn:Hh.
  - rewrite !written_app. cbn [written]. rewrite !app_nil_r. reflexivity.
  - destruct (save_fails E _ _) as [[n m|n m]|];
      rewrite !written_app; cbn [written]; rewrite ?app_nil_r;
      try reflexivity; split; [reflexivity|split; reflexivity].
Qed.

(** ** The generator [__generate_khutbah] *)

(** X10: the generator never lets an [Exception] escape, and any text it
    returns is already clean: it has no three consecutive backticks and a
    further cleaning leaves it unchanged. *)
Theorem gen_stage_outcomes : forall E topic length tone language tid st,
  match fst (gen_stage E topic length tone language tid st) with
  | Ret (Some t) => has3 t = false /\ clean_markdown t = t
  | Ret None => True
  | Raise (Exc _ _) => False
  | Raise (BaseExc _ _) => True
  end.
Proof.
  intros. pose proof (gen_stage_result E topic length tone language tid st) as H.
  destruct (fst _) as [[t|]|[n m|n m]]; try exact H.
  destruct H as [text ->]. split; [apply has3_clean_markdown|apply clean_markdown_idem].
Qed.

(** ** [generate_khutbah] *)

(** X12: a successful [generate_khutbah] returns a non-empty, clean text
    that does not start with '# ', and the document with that text has been
    written. *)
Theorem generate_khutbah_success_text : forall E topic length tone language st p t st',
  generate_khutbah E topic length tone language st = (Ret (Some p, Some t), st') ->
  t <> "" /\ startswith "# " t = false /\ has3 t = false /\ clean_markdown t = t /\
  In (rendered_doc E t topic) (written st').
Proof.
  intros E topic length tone language st p t st' H.
  apply generate_with_success2 in H as [tid [s1 [s2 [s3 [md [Hg [Hm [Hr ->]]]]]]]].
  apply truthy_some in Hm as [-> Hne].
  pose proof (gen_stage_result E topic length tone language tid s1) as Hgt.
  rewrite Hg in Hgt. cbn [fst] in Hgt. destruct Hgt as [text ->].
  pose proof (pdf_stage_outcomes E (clean_markdown text) topic language tid s2) as Hp.
  rewrite Hr in Hp. destruct Hp as [_ [Hh Hw]].
  split; [exact Hne|]. split; [exact Hh|].
  split; [apply has3_clean_markdown|]. split; [apply clean_markdown_idem|].
  rewrite written_app, Hw. cbn [written]. rewrite app_nil_r.
  apply in_or_app. right. left. reflexivity.
Qed.

Lemma generate_khutbah_success_text_witness :
  In (rendered_doc (demo_env "Body") "Body" "Patience")
     (written (snd (generate_khutbah (demo_env "Body") "Patience" "Short" "Calm" "English" []))).
Proof.
  apply (generate_khutbah_success_text (demo_env "Body") "Patience" "Short" "Calm" "English" []
           (pdf_path (demo_env "Body") "Patience" "English")).
  vm_compute. reflexivity.
Defined.

(** X13: end to end: when the model answers [resp], the clock and [uuid4]
    answer without effects, the topic is non-empty, the cleaned answer is
    non-empty and has no leading '# ', and saving succeeds, [generate_khutbah]
    returns the PDF path and the cleaned answer, and the run writes exactly
    one document. *)
Theorem generate_khutbah_end_to_end : forall E topic length tone language st resp ts u,
  (forall m p s, generate_content E m p s = (Ret resp, s)) ->
  (forall s, now_stamp E s = (Ret ts, s)) ->
  (forall s, uuid4 E s = (Ret u, s)) ->
  topic <> "" -> clean_markdown resp <> "" ->
  startswith "# " (clean_markdown resp) = false ->
  save_fails E (rendered_doc E (clean_markdown resp) topic) (pdf_path E topic language) = None ->
  let '(o, st') := generate_khutbah E topic length tone language st in
  o = Ret (Some (pdf_path E topic language), Some (clean_markdown resp)) /\
  written st' = app (written st) [rendered_doc E (clean_markdown resp) topic].
Proof.
  intros E topic length tone language st resp ts u Hgc Hts Hu Ht Hne Hh Hs.
  unfold generate_khutbah, generate_with.
  destruct (String.eqb topic "") eqn:Et; [apply String.eqb_eq in Et; contradiction|].
  cbv [bind ret emit log_info log_error try_except].
  assert (Hid : get_taskid E st = (Ret (ts ++ "_" ++ substring 0 8 u), st))
    by (unfold get_taskid, bind, ret; rewrite Hts, Hu; reflexivity).
  rewrite Hid.
  destruct (gen_stage_answer_written E resp topic length tone language
              (ts ++ "_" ++ substring 0 8 u)
              (app st [EvLog Info (tag (ts ++ "_" ++ substring 0 8 u) ++
                                   "Khutbah generation started!")]) Hgc) as [s2 [Hg Hw]].
  rewrite Hg, truthy_nonempty by exact Hne.
  rewrite pdf_stage_eq. cbv zeta. rewrite Hh, Hs.
  rewrite truthy_nonempty by apply pdf_path_nonempty.
  split; [reflexivity|].
  rewrite !written_app, Hw, written_app. cbn [written]. rewrite ?app_nil_r. reflexivity.
Qed.

Lemma generate_khutbah_end_to_end_witness :
  fst (generate_khutbah (demo_env "  Body  ") "Patience" "Short" "Calm" "English" [])
  = Ret (Some "/tmp/Patience_khutbah_english.pdf", Some "Body").
Proof.
  pose proof (generate_khutbah_end_to_end (demo_env "  Body  ") "Patience" "Short" "Calm"
                "English" [] "  Body  " "20261019_120000" "0123456789abcdef"
                (fun _ _ _ => eq_refl) (fun _ => eq_refl) (fun _ => eq_refl)
                ltac:(discriminate) ltac:(vm_compute; discriminate)
                ltac:(vm_compute; reflexivity) ltac:(vm_compute; reflexivity)) as H.
  destruct (generate_khutbah _ _ _ _ _ _) as [o st'] eqn:E.
  destruct H as [-> _]. vm_compute. reflexivity.
Defined.

End KM.
